(** * SCD Type 2 pipeline monitoring: validator and error dispatch

    A shallow embedding of the two monitoring Lambda functions of the
    sf_user pipeline,

    - [monitoring/lambda-functions/pipeline-validator.py]
    - [monitoring/lambda-functions/error-handler.py]

    together with the SQL text they send to Athena, evaluated over a model
    of the table [salesforce_curated.dim_sf_user_scd], and of the History
    Merger as the specification describes it (module [Merger]).

    Conventions.
    - A Lambda event is a JSON object; JSON values are [PyVal].  JSON
      numbers are restricted to integers (the pipeline passes counters).
    - Python exceptions are values of [PyExc]; a computation that may raise
      lives in [Res], one that also mutates a result dictionary in [St].
    - [execute_athena_query] polls Athena until the query reaches a
      terminal state; the model starts from that terminal response
      ([AthenaResponse]), i.e. it assumes the polling loop ends.
    - Scores are Python floats; every quotient formed here has a
      denominator in {1,2,3,4} and a numerator bounded by it, times 100; they
      are modelled as rationals [Q]. *)

From Stdlib Require Import ZArith QArith DecimalString DecimalZ.
From stdpp Require Import gmap strings list sorting.

Set Warnings "-register-all".
Local Open Scope string_scope.
Local Open Scope list_scope.
Local Open Scope Z_scope.

(** ** Python values and exceptions *)

Inductive PyVal : Type :=
| PNone
| PBool (b : bool)
| PInt (z : Z)
| PStr (s : string)
| PList (l : list PyVal)
| PDict (d : list (string * PyVal)).

Inductive PyExc : Type :=
| AttributeError (type_of : string) (attr : string)
| TypeError (msg : string)
| ValueError (msg : string)
| KeyError (key : string)
| IndexError (msg : string)
| PlainException (msg : string).

Inductive Res (A : Type) : Type :=
| Ok (a : A)
| Raise (e : PyExc).
Arguments Ok {A} a.
Arguments Raise {A} e.

#[global] Instance res_ret : MRet Res := fun _ a => Ok a.
#[global] Instance res_bind : MBind Res := fun _ _ f m =>
  match m with
  | Ok a => f a
  | Raise e => Raise e
  end.

(** State threaded through a [try] block: the exception, when there is one,
    comes with the state reached at the raising statement. *)
Definition St (S A : Type) : Type := S -> Res A * S.

#[global] Instance st_ret {S} : MRet (St S) := fun _ a s => (Ok a, s).
#[global] Instance st_bind {S} : MBind (St S) := fun _ _ f m s =>
  match m s with
  | (Ok a, s') => f a s'
  | (Raise e, s') => (Raise e, s')
  end.

Definition lift {S A} (r : Res A) : St S A := fun s => (r, s).
Definition modify {S} (f : S -> S) : St S unit := fun s => (Ok tt, f s).
Definition gets {S A} (f : S -> A) : St S A := fun s => (Ok (f s), s).
Definition when {S} (b : bool) (m : St S unit) : St S unit :=
  if b then m else mret tt.

(** [try: body except Exception as e: handler]; returns the final state. *)
Definition try_except {S} (body : St S unit) (handler : PyExc -> S -> S) (s : S) : S :=
  match body s with
  | (Ok _, s') => s'
  | (Raise e, s') => handler e s'
  end.

Definition type_name (v : PyVal) : string :=
  match v with
  | PNone => "NoneType"
  | PBool _ => "bool"
  | PInt _ => "int"
  | PStr _ => "str"
  | PList _ => "list"
  | PDict _ => "dict"
  end.

(** [str(e)] for the exceptions above. *)
Definition exc_str (e : PyExc) : string :=
  match e with
  | AttributeError t a => "'" +:+ t +:+ "' object has no attribute '" +:+ a +:+ "'"
  | TypeError m => m
  | ValueError m => m
  | KeyError k => "'" +:+ k +:+ "'"
  | IndexError m => m
  | PlainException m => m
  end.

(** Dicts keep insertion order; keys are strings. *)
Fixpoint dict_get {V} (d : list (string * V)) (k : string) : option V :=
  match d with
  | [] => None
  | (k', v) :: d' => if String.eqb k k' then Some v else dict_get d' k
  end.

(** [d[k] = v]: overwrite in place, or append a new key. *)
Fixpoint dict_set {V} (d : list (string * V)) (k : string) (v : V) : list (string * V) :=
  match d with
  | [] => [(k, v)]
  | (k', v') :: d' =>
      if String.eqb k k' then (k, v) :: d' else (k', v') :: dict_set d' k v
  end.

(** [v.get(k, dflt)]: only dictionaries have [get]. *)
Definition py_get (v : PyVal) (k : string) (dflt : PyVal) : Res PyVal :=
  match v with
  | PDict d => Ok (default dflt (dict_get d k))
  | _ => Raise (AttributeError (type_name v) "get")
  end.

(** Truth value of [v] in a condition. *)
Definition py_truthy (v : PyVal) : bool :=
  match v with
  | PNone => false
  | PBool b => b
  | PInt z => negb (z =? 0)
  | PStr s => negb (String.eqb s "")
  | PList l => negb (Nat.eqb (length l) 0)%nat
  | PDict d => negb (Nat.eqb (length d) 0)%nat
  end.

Definition is_str (k : string) (v : PyVal) : bool :=
  match v with
  | PStr s => String.eqb s k
  | _ => false
  end.

(** [k in v] for a string [k]: key of a dict, substring of a str, element
    of a list; other values are not iterable. *)
Definition py_contains (k : string) (v : PyVal) : Res bool :=
  match v with
  | PDict d => Ok (bool_decide (is_Some (dict_get d k)))
  | PStr s => Ok (bool_decide (is_Some (String.index 0 k s)))
  | PList l => Ok (existsb (is_str k) l)
  | _ => Raise (TypeError ("argument of type '" +:+ type_name v +:+ "' is not iterable"))
  end.

(** [v[k]] for a string [k]. *)
Definition py_getitem (v : PyVal) (k : string) : Res PyVal :=
  match v with
  | PDict d =>
      match dict_get d k with
      | Some x => Ok x
      | None => Raise (KeyError k)
      end
  | PStr _ => Raise (TypeError "string indices must be integers")
  | PList _ => Raise (TypeError "list indices must be integers or slices, not str")
  | _ => Raise (TypeError ("'" +:+ type_name v +:+ "' object is not subscriptable"))
  end.

(** The integer behind a numeric value ([bool] is a subtype of [int]). *)
Definition py_number (v : PyVal) : option Z :=
  match v with
  | PInt z => Some z
  | PBool b => Some (if b then 1 else 0)
  | _ => None
  end.

Definition unorderable (op : string) (v : PyVal) : PyExc :=
  TypeError ("'" +:+ op +:+ "' not supported between instances of '"
             +:+ type_name v +:+ "' and 'int'").

(** The left operand of [v > 0], when the comparison is defined. *)
Definition py_compare_int (op : string) (v : PyVal) : Res Z :=
  match py_number v with
  | Some z => Ok z
  | None => Raise (unorderable op v)
  end.

(** [int(s)] on a string: an optional minus sign and decimal digits, the
    shape of every integer cell Athena renders.  (Python also accepts
    surrounding blanks, a plus sign and digit separators.) *)
Definition int_of_str (s : string) : Res Z :=
  match NilZero.int_of_string s with
  | Some d => Ok (Z.of_int d)
  | None => Raise (ValueError ("invalid literal for int() with base 10: '" +:+ s +:+ "'"))
  end.

(** [str(n)] for an integer, as in an f-string. *)
Definition str_of_int (z : Z) : string := NilZero.string_of_int (Z.to_int z).

(** [int(v)]. *)
Definition py_int (v : PyVal) : Res Z :=
  match v with
  | PInt z => Ok z
  | PBool b => Ok (if b then 1 else 0)
  | PStr s => int_of_str s
  | _ => Raise (TypeError ("int() argument must be a string, a bytes-like object or a real number, not '"
                           +:+ type_name v +:+ "'"))
  end.

(** ** Athena *)

(** The queries this file sends, one constructor per SQL text. *)
Inductive Query : Type :=
| QDataFreshness
| QRequiredFields
| QCurrentUniqueness
| QHistoricalIntegrity
| QProcessingStats.

Inductive QueryState : Type := SUCCEEDED | FAILED | CANCELLED.

Definition state_name (st : QueryState) : string :=
  match st with
  | SUCCEEDED => "SUCCEEDED"
  | FAILED => "FAILED"
  | CANCELLED => "CANCELLED"
  end.

(** [get_query_results]: the column labels and the data rows after the
    header row; a cell without [VarCharValue] is [None]. *)
Record ResultSet : Type := {
  columns : list string;
  data_rows : list (list (option string))
}.

(** What the Athena client does for one query: a client call raises, or the
    query reaches a terminal state (with its result set when it succeeded). *)
Inductive AthenaResponse : Type :=
| ClientRaises (e : PyExc)
| Terminal (st : QueryState) (rs : ResultSet).

Definition Athena : Type := Query -> AthenaResponse.

(** One result row: a dict from column label to cell text. *)
Abbreviation AthenaRow := (gmap string string).

(** [row_data[col] = row['Data'][i].get('VarCharValue', '')] for every
    column [i]; a row shorter than the header raises [IndexError]. *)
Fixpoint row_data (cols : list string) (cells : list (option string))
    (acc : AthenaRow) : Res AthenaRow :=
  match cols with
  | [] => Ok acc
  | col :: cols' =>
      match cells with
      | [] => Raise (IndexError "list index out of range")
      | cell :: cells' => row_data cols' cells' (<[col := default "" cell]> acc)
      end
  end.

Fixpoint parse_rows (cols : list string) (rows : list (list (option string)))
    : Res (list AthenaRow) :=
  match rows with
  | [] => Ok []
  | r :: rows' =>
      d ← row_data cols r ∅;
      ds ← parse_rows cols rows';
      mret (d :: ds)
  end.

Definition execute_athena_query (athena : Athena) (query : Query) : Res (list AthenaRow) :=
  match athena query with
  | ClientRaises e => Raise e
  | Terminal st rs =>
      match st with
      | SUCCEEDED => parse_rows (columns rs) (data_rows rs)
      | _ => Raise (PlainException ("Query failed with status: " +:+ state_name st))
      end
  end.

(** [int(row.get(col, 0))]. *)
Definition int_cell (row : AthenaRow) (col : string) : Res Z :=
  match row !! col with
  | Some s => int_of_str s
  | None => Ok 0
  end.

(** ** The SCD checks of [pipeline-validator.py] *)

(** Result dict of [validate_scd_current_uniqueness]; the keys that only one
    of its two [return] statements sets are optional. *)
Record UniquenessResult : Type := {
  cu_passed : bool;
  cu_duplicate_current_records : option Z;
  cu_error_count : Z;
  cu_details : option (list AthenaRow);
  cu_error_message : option string
}.

Definition validate_scd_current_uniqueness (athena : Athena) (environment : PyVal)
    : UniquenessResult :=
  match execute_athena_query athena QCurrentUniqueness with
  | Ok result =>
      let duplicate_users :=
        match result with
        | [] => 0
        | _ => Z.of_nat (length result)
        end in
      {| cu_passed := duplicate_users =? 0;
         cu_duplicate_current_records := Some duplicate_users;
         cu_error_count := duplicate_users;
         cu_details := Some (match result with [] => [] | _ => take 10 result end);
         cu_error_message := None |}
  | Raise e =>
      {| cu_passed := false;
         cu_duplicate_current_records := None;
         cu_error_count := 1;
         cu_details := None;
         cu_error_message := Some (exc_str e) |}
  end.

(** Result dict of [validate_scd_historical_integrity]. *)
Record HistoricalResult : Type := {
  hi_passed : bool;
  hi_error_count : Z;
  hi_integrity_issues : option (list AthenaRow);
  hi_details : option string;
  hi_error_message : option string
}.

(** [sum(int(row.get('issue_count', 0)) for row in result)]. *)
Fixpoint sum_issue_counts (result : list AthenaRow) : Res Z :=
  match result with
  | [] => Ok 0
  | row :: rest =>
      n ← int_cell row "issue_count";
      m ← sum_issue_counts rest;
      mret (n + m)
  end.

Definition validate_scd_historical_integrity (athena : Athena) (environment : PyVal)
    : HistoricalResult :=
  match result ← execute_athena_query athena QHistoricalIntegrity;
        total_issues ← sum_issue_counts result;
        mret (result, total_issues) with
  | Ok (result, total_issues) =>
      {| hi_passed := total_issues =? 0;
         hi_error_count := total_issues;
         hi_integrity_issues := Some result;
         hi_details := Some "SCD historical integrity validation completed";
         hi_error_message := None |}
  | Raise e =>
      {| hi_passed := false;
         hi_error_count := 1;
         hi_integrity_issues := None;
         hi_details := None;
         hi_error_message := Some (exc_str e) |}
  end.

(** Result dict of [get_scd_processing_stats]. *)
Record ScdStats : Type := {
  total_scd_records : Z;
  current_records : Z;
  deleted_records : Z;
  records_created : Z;
  records_updated : Z;
  records_deleted : Z
}.

Definition no_stats : ScdStats :=
  {| total_scd_records := 0; current_records := 0; deleted_records := 0;
     records_created := 0; records_updated := 0; records_deleted := 0 |}.

Definition get_scd_processing_stats (athena : Athena) (environment : PyVal) : ScdStats :=
  match execute_athena_query athena QProcessingStats with
  | Ok (row :: _) =>
      match total ← int_cell row "total_scd_records";
            current ← int_cell row "current_records";
            deleted ← int_cell row "deleted_records";
            created ← int_cell row "recently_updated";
            deleted' ← int_cell row "deleted_records";
            mret {| total_scd_records := total; current_records := current;
                    deleted_records := deleted; records_created := created;
                    records_updated := 0; records_deleted := deleted' |} with
      | Ok stats => stats
      | Raise _ => no_stats
      end
  | Ok [] => no_stats
  | Raise _ => no_stats
  end.

(** An entry of [validation_details]. *)
Inductive CheckDetail : Type :=
| CurrentUniquenessDetail (r : UniquenessResult)
| HistoricalIntegrityDetail (r : HistoricalResult).

(** [v['passed']]. *)
Definition detail_passed (v : CheckDetail) : bool :=
  match v with
  | CurrentUniquenessDetail r => cu_passed r
  | HistoricalIntegrityDetail r => hi_passed r
  end.

(** The dict [validation_results] of [validate_scd_integrity]. *)
Record ScdValidation : Type := {
  validation_passed : bool;
  integrity_score : Q;
  validations_performed : list string;
  validation_errors : Z;
  scd_records_created : Z;
  scd_records_updated : Z;
  scd_records_deleted : Z;
  validation_details : list (string * CheckDetail)
}.

Definition set_validation_passed (b : bool) (r : ScdValidation) : ScdValidation :=
  {| validation_passed := b;
     integrity_score := integrity_score r;
     validations_performed := validations_performed r;
     validation_errors := validation_errors r;
     scd_records_created := scd_records_created r;
     scd_records_updated := scd_records_updated r;
     scd_records_deleted := scd_records_deleted r;
     validation_details := validation_details r |}.

Definition set_integrity_score (q : Q) (r : ScdValidation) : ScdValidation :=
  {| validation_passed := validation_passed r;
     integrity_score := q;
     validations_performed := validations_performed r;
     validation_errors := validation_errors r;
     scd_records_created := scd_records_created r;
     scd_records_updated := scd_records_updated r;
     scd_records_deleted := scd_records_deleted r;
     validation_details := validation_details r |}.

Definition add_validation_errors (n : Z) (r : ScdValidation) : ScdValidation :=
  {| validation_passed := validation_passed r;
     integrity_score := integrity_score r;
     validations_performed := validations_performed r;
     validation_errors := validation_errors r + n;
     scd_records_created := scd_records_created r;
     scd_records_updated := scd_records_updated r;
     scd_records_deleted := scd_records_deleted r;
     validation_details := validation_details r |}.

(** [validations_performed.append(name)] and [validation_details[key] = v]. *)
Definition record_check (name key : string) (v : CheckDetail) (r : ScdValidation)
    : ScdValidation :=
  {| validation_passed := validation_passed r;
     integrity_score := integrity_score r;
     validations_performed := validations_performed r ++ [name];
     validation_errors := validation_errors r;
     scd_records_created := scd_records_created r;
     scd_records_updated := scd_records_updated r;
     scd_records_deleted := scd_records_deleted r;
     validation_details := dict_set (validation_details r) key v |}.

Definition set_scd_stats (st : ScdStats) (r : ScdValidation) : ScdValidation :=
  {| validation_passed := validation_passed r;
     integrity_score := integrity_score r;
     validations_performed := validations_performed r;
     validation_errors := validation_errors r;
     scd_records_created := records_created st;
     scd_records_updated := records_updated st;
     scd_records_deleted := records_deleted st;
     validation_details := validation_details r |}.

Definition initial_scd_validation : ScdValidation :=
  {| validation_passed := true;
     integrity_score := 100;
     validations_performed := [];
     validation_errors := 0;
     scd_records_created := 0;
     scd_records_updated := 0;
     scd_records_deleted := 0;
     validation_details := [] |}.

(** [sum(1 for v in validation_details.values() if v['passed'])]. *)
Definition passed_validations (r : ScdValidation) : nat :=
  length (filter (fun kv => detail_passed kv.2 = true) (validation_details r)).

(** [(passed_validations / total_validations) * 100]. *)
Definition score_of (passed total : nat) : Q :=
  (inject_Z (Z.of_nat passed) / inject_Z (Z.of_nat total) * 100)%Q.

(** A Lambda event: the dict behind [event: Dict[str, Any]]. *)
Abbreviation Event := (list (string * PyVal)).

(** First part of the [try] block of [validate_scd_integrity]: the dbt test
    results handed over in the event. *)
Definition scd_dbt_results (dbt_test_result : PyVal) : St ScdValidation unit :=
  has_payload ← lift (if py_truthy dbt_test_result
                      then py_contains "Payload" dbt_test_result
                      else Ok false);
  when has_payload (
    payload ← lift (py_getitem dbt_test_result "Payload");
    tests_failed ← lift (py_get payload "tests_failed" (PInt 0));
    n ← lift (py_compare_int ">" tests_failed);
    when (0 <? n) (
      modify (set_validation_passed false);;
      modify (add_validation_errors n))).

(** Second part: the two checks, the statistics and the score. *)
Definition scd_checks (athena : Athena) (environment : PyVal) : St ScdValidation unit :=
  let current_uniqueness_validation := validate_scd_current_uniqueness athena environment in
  modify (record_check "scd_current_uniqueness" "current_uniqueness"
            (CurrentUniquenessDetail current_uniqueness_validation));;
  when (negb (cu_passed current_uniqueness_validation)) (
    modify (set_validation_passed false);;
    modify (add_validation_errors (cu_error_count current_uniqueness_validation)));;
  let historical_integrity_validation := validate_scd_historical_integrity athena environment in
  modify (record_check "scd_historical_integrity" "historical_integrity"
            (HistoricalIntegrityDetail historical_integrity_validation));;
  when (negb (hi_passed historical_integrity_validation)) (
    modify (set_validation_passed false);;
    modify (add_validation_errors (hi_error_count historical_integrity_validation)));;
  let scd_stats := get_scd_processing_stats athena environment in
  modify (set_scd_stats scd_stats);;
  total_validations ← gets (fun r => length (validations_performed r));
  when (0 <? total_validations)%nat (
    passed ← gets passed_validations;
    modify (set_integrity_score (score_of passed total_validations))).

(** The whole [try] block. *)
Definition scd_integrity_body (athena : Athena) (environment : PyVal)
    (dbt_test_result : PyVal) : St ScdValidation unit :=
  scd_dbt_results dbt_test_result;;
  scd_checks athena environment.

(** The [except Exception] block of [validate_scd_integrity]. *)
Definition scd_integrity_handler (e : PyExc) (r : ScdValidation) : ScdValidation :=
  set_integrity_score 0 (add_validation_errors 1 (set_validation_passed false r)).

(** The run of the [try] block on the initial dict: its outcome and the
    state it leaves. *)
Definition scd_integrity_run (athena : Athena) (event : Event) (environment : PyVal)
    : Res unit * ScdValidation :=
  let dbt_test_result := default (PDict []) (dict_get event "dbt_test_result") in
  scd_integrity_body athena environment dbt_test_result initial_scd_validation.

Definition validate_scd_integrity (athena : Athena) (event : Event) (environment : PyVal)
    : ScdValidation :=
  let dbt_test_result := default (PDict []) (dict_get event "dbt_test_result") in
  try_except (scd_integrity_body athena environment dbt_test_result)
             scd_integrity_handler initial_scd_validation.

(** ** The table [salesforce_curated.dim_sf_user_scd] and the two SCD queries

    The columns the queries read.  [update_date] is the instant a version
    starts; the table stores no end instant, a version ends where the next
    one of the same user starts, and [is_current] is the stored mark of a
    version that has not ended.  Columns are not nullable. *)

Record ScdRow : Type := {
  user_id : string;
  update_date : Z;
  is_current : bool;
  is_deleted : bool
}.

Abbreviation Table := (list ScdRow).

(** [GROUP BY user_id]: one group per distinct user of [rows]. *)
Definition group_by_user (rows : list ScdRow) : list (string * list ScdRow) :=
  (fun u => (u, filter (fun r => user_id r = u) rows))
    <$> remove_dups (user_id <$> rows).

(** [[
    SELECT user_id, COUNT( * ) as current_record_count
    FROM salesforce_curated.dim_sf_user_scd
    WHERE is_current = true AND is_deleted = false
    GROUP BY user_id
    HAVING COUNT( * ) > 1
    ]] *)
Definition current_uniqueness_sql (t : Table) : list (string * nat) :=
  filter (fun g => (1 < g.2)%nat)
    ((fun g => (g.1, length g.2))
       <$> group_by_user
             (filter (fun r => is_current r = true /\ is_deleted r = false) t)).

Definition current_uniqueness_result (t : Table) : ResultSet :=
  {| columns := ["user_id"; "current_record_count"];
     data_rows := (fun g => [Some g.1; Some (str_of_int (Z.of_nat g.2))])
                    <$> current_uniqueness_sql t |}.

(** A row of the CTE [scd_ordered]. *)
Record OrderedRow : Type := {
  o_user_id : string;
  o_update_date : Z;
  o_is_current : bool;
  prev_update_date : option Z;
  next_update_date : option Z
}.

(** [LAG(update_date)] and [LEAD(update_date)] along one ordered partition;
    [prev] is the [update_date] of the row before the head. *)
Fixpoint lag_lead (prev : option Z) (partition : list ScdRow) : list OrderedRow :=
  match partition with
  | [] => []
  | r :: rest =>
      {| o_user_id := user_id r;
         o_update_date := update_date r;
         o_is_current := is_current r;
         prev_update_date := prev;
         next_update_date := update_date <$> head rest |}
      :: lag_lead (Some (update_date r)) rest
  end.

(** [ORDER BY update_date]; rows with equal dates stay in the order
    [merge_sort] leaves them. *)
Definition by_update_date (a b : ScdRow) : Prop := update_date a <= update_date b.

#[global] Instance by_update_date_dec a b : Decision (by_update_date a b).
Proof. unfold by_update_date. apply _. Defined.

(** [PARTITION BY user_id ORDER BY update_date] over one group. *)
Definition ordered_partition (g : list ScdRow) : list ScdRow :=
  merge_sort by_update_date g.

(** [[
    SELECT user_id, update_date, is_current,
           LAG(update_date)  OVER (PARTITION BY user_id ORDER BY update_date),
           LEAD(update_date) OVER (PARTITION BY user_id ORDER BY update_date)
    FROM salesforce_curated.dim_sf_user_scd
    WHERE is_deleted = false
    ]] *)
Definition scd_ordered (t : Table) : list OrderedRow :=
  g ← group_by_user (filter (fun r => is_deleted r = false) t);
  lag_lead None (ordered_partition g.2).

(** [WHERE prev_update_date IS NOT NULL AND update_date != prev_update_date
    AND is_current = false]. *)
Definition gap_in_history (o : OrderedRow) : bool :=
  match prev_update_date o with
  | Some p => negb (o_update_date o =? p) && negb (o_is_current o)
  | None => false
  end.

(** [WHERE is_current = true AND next_update_date IS NOT NULL]. *)
Definition current_flag_issue (o : OrderedRow) : bool :=
  o_is_current o && bool_decide (is_Some (next_update_date o)).

(** The CTE [integrity_issues]: the two selections under [UNION ALL], each
    row tagged with its [issue_type]. *)
Definition integrity_issues (t : Table) : list (string * OrderedRow) :=
  ((fun o => ("gap_in_history", o)) <$> filter gap_in_history (scd_ordered t))
  ++ ((fun o => ("current_flag_issue", o)) <$> filter current_flag_issue (scd_ordered t)).

(** [SELECT issue_type, COUNT( * ) as issue_count FROM integrity_issues
    GROUP BY issue_type]. *)
Definition historical_integrity_sql (t : Table) : list (string * nat) :=
  let issues := integrity_issues t in
  (fun ty => (ty, length (filter (fun i => i.1 = ty) issues)))
    <$> remove_dups (fst <$> issues).

Definition historical_integrity_result (t : Table) : ResultSet :=
  {| columns := ["issue_type"; "issue_count"];
     data_rows := (fun g => [Some g.1; Some (str_of_int (Z.of_nat g.2))])
                    <$> historical_integrity_sql t |}.

(** An Athena that answers the two SCD queries from the table [t] and every
    other query as [other] does. *)
Definition athena_on (t : Table) (other : Athena) : Athena :=
  fun q =>
    match q with
    | QCurrentUniqueness => Terminal SUCCEEDED (current_uniqueness_result t)
    | QHistoricalIntegrity => Terminal SUCCEEDED (historical_integrity_result t)
    | _ => other q
    end.

(** *** Vocabulary of the integrity claims, read off the table *)

(** Number of rows of user [u] with [is_current = true] and
    [is_deleted = false]. *)
Definition current_count (t : Table) (u : string) : nat :=
  length (filter (fun r => user_id r = u /\ is_current r = true /\ is_deleted r = false) t).





(** The users with at least one version that is not deleted. *)
Definition live_users (t : Table) : list string :=
  remove_dups (user_id <$> filter (fun r => is_deleted r = false) t).


(** ** The Glue-job checks of [pipeline-validator.py] *)

(** What the model takes from the Python runtime and the process
    environment. *)
Record Runtime : Type := {
  (** [str(v)] of a list or a dict *)
  container_str : PyVal -> string;
  (** [datetime.now(timezone.utc).isoformat()] *)
  now_isoformat : string;
  (** hours between now and
      [datetime.fromisoformat(s.replace('Z', '+00:00'))], the value of the
      Python float; raises as [fromisoformat] or the subtraction do *)
  hours_since : string -> Res Q;
  (** the format [{h:.1f}] *)
  format_1f : Q -> string;
  (** [os.environ.get('ENVIRONMENT', 'dev')] *)
  DEFAULT_ENVIRONMENT : string
}.

(** [str(v)], as in an f-string. *)
Definition py_str (rt : Runtime) (v : PyVal) : string :=
  match v with
  | PNone => "None"
  | PBool true => "True"
  | PBool false => "False"
  | PInt z => str_of_int z
  | PStr s => s
  | _ => container_str rt v
  end.

(** Result dict of [validate_data_freshness]. *)
Record FreshnessResult : Type := {
  fr_passed : bool;
  fr_latest_extraction : option string;
  fr_total_records : option Z;
  fr_hours_since_extraction : option Q;
  fr_errors : list string
}.

Definition freshness_failed (errors : list string) : FreshnessResult :=
  {| fr_passed := false; fr_latest_extraction := None; fr_total_records := None;
     fr_hours_since_extraction := None; fr_errors := errors |}.

Definition validate_data_freshness (rt : Runtime) (athena : Athena) (environment : PyVal)
    : FreshnessResult :=
  match
    result ← execute_athena_query athena QDataFreshness;
    match result with
    | row :: _ =>
        let latest_extraction := row !! "latest_extraction" in
        total_records ← int_cell row "total_records";
        match latest_extraction with
        | Some (String c s as latest) =>
            hours_since_extraction ← hours_since rt latest;
            if Qle_bool hours_since_extraction 6 && (0 <? total_records)
            then mret {| fr_passed := true;
                         fr_latest_extraction := Some latest;
                         fr_total_records := Some total_records;
                         fr_hours_since_extraction := Some hours_since_extraction;
                         fr_errors := [] |}
            else mret {| fr_passed := false;
                         fr_latest_extraction := Some latest;
                         fr_total_records := Some total_records;
                         fr_hours_since_extraction := Some hours_since_extraction;
                         fr_errors := ["Data not fresh - "
                                       +:+ format_1f rt hours_since_extraction
                                       +:+ " hours since last extraction"] |}
        | _ => mret (freshness_failed ["No recent extraction timestamp found"])
        end
    | [] => mret (freshness_failed ["No data found in raw table"])
    end
  with
  | Ok r => r
  | Raise e => freshness_failed ["Freshness validation error: " +:+ exc_str e]
  end.

(** Result dict of [validate_required_fields], without the percentages of
    [field_coverage] (floating-point quotients that no code reads back). *)
Record RequiredFieldsResult : Type := {
  rf_passed : bool;
  rf_total_records : option Z;
  rf_errors : list string
}.

Definition validate_required_fields (athena : Athena) (environment : PyVal)
    : RequiredFieldsResult :=
  match
    result ← execute_athena_query athena QRequiredFields;
    match result with
    | row :: _ =>
        total_records ← int_cell row "total_records";
        id_count ← int_cell row "id_count";
        name_count ← int_cell row "name_count";
        division_count ← int_cell row "division_count";
        audit_phase_count ← int_cell row "audit_phase_count";
        let errors :=
          if total_records =? 0 then ["No records found"]
          else
            ((if negb (id_count =? total_records)
              then ["Missing ID values: " +:+ str_of_int (total_records - id_count) +:+ " records"]
              else [])
             ++ (if negb (name_count =? total_records)
                 then ["Missing Name values: " +:+ str_of_int (total_records - name_count) +:+ " records"]
                 else []))%list in
        mret {| rf_passed := bool_decide (errors = []);
                rf_total_records := Some total_records;
                rf_errors := errors |}
    | [] => mret {| rf_passed := false; rf_total_records := None;
                    rf_errors := ["Could not retrieve field validation data"] |}
    end
  with
  | Ok r => r
  | Raise e => {| rf_passed := false; rf_total_records := None;
                  rf_errors := ["Required fields validation error: " +:+ exc_str e] |}
  end.

Module Glue.

(** An entry of [validation_details]. *)
Inductive Detail : Type :=
| DataFreshness (r : FreshnessResult)
| RequiredFields (r : RequiredFieldsResult).

(** The dict [validation_results] of [validate_glue_job_results]. *)
Record Validation : Type := {
  validation_passed : bool;
  data_quality_passed : bool;
  validations_performed : list string;
  failed_validations : list string;
  data_quality_score : Q;
  records_processed : Z;
  validation_details : list (string * Detail)
}.

Definition initial : Validation :=
  {| validation_passed := true;
     data_quality_passed := true;
     validations_performed := [];
     failed_validations := [];
     data_quality_score := 100;
     records_processed := 0;
     validation_details := [] |}.

Definition set_validation_passed (b : bool) (r : Validation) : Validation :=
  {| validation_passed := b;
     data_quality_passed := data_quality_passed r;
     validations_performed := validations_performed r;
     failed_validations := failed_validations r;
     data_quality_score := data_quality_score r;
     records_processed := records_processed r;
     validation_details := validation_details r |}.

Definition set_data_quality_passed (b : bool) (r : Validation) : Validation :=
  {| validation_passed := validation_passed r;
     data_quality_passed := b;
     validations_performed := validations_performed r;
     failed_validations := failed_validations r;
     data_quality_score := data_quality_score r;
     records_processed := records_processed r;
     validation_details := validation_details r |}.

(** [validations_performed.append(name)]. *)
Definition performed (name : string) (r : Validation) : Validation :=
  {| validation_passed := validation_passed r;
     data_quality_passed := data_quality_passed r;
     validations_performed := validations_performed r ++ [name];
     failed_validations := failed_validations r;
     data_quality_score := data_quality_score r;
     records_processed := records_processed r;
     validation_details := validation_details r |}.

(** [failed_validations.extend(errors)]. *)
Definition failed (errors : list string) (r : Validation) : Validation :=
  {| validation_passed := validation_passed r;
     data_quality_passed := data_quality_passed r;
     validations_performed := validations_performed r;
     failed_validations := failed_validations r ++ errors;
     data_quality_score := data_quality_score r;
     records_processed := records_processed r;
     validation_details := validation_details r |}.

Definition set_data_quality_score (q : Q) (r : Validation) : Validation :=
  {| validation_passed := validation_passed r;
     data_quality_passed := data_quality_passed r;
     validations_performed := validations_performed r;
     failed_validations := failed_validations r;
     data_quality_score := q;
     records_processed := records_processed r;
     validation_details := validation_details r |}.

Definition set_records_processed (n : Z) (r : Validation) : Validation :=
  {| validation_passed := validation_passed r;
     data_quality_passed := data_quality_passed r;
     validations_performed := validations_performed r;
     failed_validations := failed_validations r;
     data_quality_score := data_quality_score r;
     records_processed := n;
     validation_details := validation_details r |}.

(** [validation_details[key] = v]. *)
Definition set_detail (key : string) (v : Detail) (r : Validation) : Validation :=
  {| validation_passed := validation_passed r;
     data_quality_passed := data_quality_passed r;
     validations_performed := validations_performed r;
     failed_validations := failed_validations r;
     data_quality_score := data_quality_score r;
     records_processed := records_processed r;
     validation_details := dict_set (validation_details r) key v |}.

End Glue.

(** The [try] block of [validate_glue_job_results]; the early [return]
    ends the block in the branch of a failed job. *)
Definition glue_job_results_body (rt : Runtime) (athena : Athena) (environment : PyVal)
    (glue_job_result : PyVal) : St Glue.Validation unit :=
  job_run_state ← lift (py_get glue_job_result "JobRunState" (PStr "UNKNOWN"));
  modify (Glue.performed "glue_job_status");;
  if negb (is_str "SUCCEEDED" job_run_state) then
    modify (Glue.set_validation_passed false);;
    modify (Glue.set_data_quality_passed false);;
    modify (Glue.failed ["Glue job failed with state: " +:+ py_str rt job_run_state])
  else
    arguments ← lift (py_get glue_job_result "Arguments" (PDict []));
    processed ← lift (py_get arguments "--records-processed" (PInt 0));
    records_processed ← lift (py_int processed);
    modify (Glue.set_records_processed records_processed);;
    modify (Glue.performed "minimum_record_count");;
    let min_expected_records := 100 in
    when (records_processed <? min_expected_records) (
      modify (Glue.failed ["Records processed (" +:+ str_of_int records_processed
                           +:+ ") below minimum threshold ("
                           +:+ str_of_int min_expected_records +:+ ")"]);;
      modify (Glue.set_data_quality_passed false));;
    let freshness_validation := validate_data_freshness rt athena environment in
    modify (Glue.performed "data_freshness");;
    modify (Glue.set_detail "data_freshness" (Glue.DataFreshness freshness_validation));;
    when (negb (fr_passed freshness_validation)) (
      modify (Glue.failed (fr_errors freshness_validation));;
      modify (Glue.set_data_quality_passed false));;
    let required_fields_validation := validate_required_fields athena environment in
    modify (Glue.performed "required_fields");;
    modify (Glue.set_detail "required_fields" (Glue.RequiredFields required_fields_validation));;
    when (negb (rf_passed required_fields_validation)) (
      modify (Glue.failed (rf_errors required_fields_validation));;
      modify (Glue.set_data_quality_passed false));;
    total_validations ← gets (fun r => Z.of_nat (length (Glue.validations_performed r)));
    failed_validations ← gets (fun r => Z.of_nat (length (Glue.failed_validations r)));
    when (0 <? total_validations) (
      modify (Glue.set_data_quality_score
                (inject_Z (total_validations - failed_validations)
                 / inject_Z total_validations * 100)%Q));;
    let quality_threshold := 95%Q in
    score ← gets Glue.data_quality_score;
    modify (Glue.set_validation_passed (Qle_bool quality_threshold score)).

Definition glue_job_results_handler (e : PyExc) (r : Glue.Validation) : Glue.Validation :=
  Glue.failed ["Validation error: " +:+ exc_str e]
    (Glue.set_data_quality_passed false (Glue.set_validation_passed false r)).

Definition validate_glue_job_results (rt : Runtime) (athena : Athena) (event : Event)
    (environment : PyVal) : Glue.Validation :=
  let glue_job_result := default (PDict []) (dict_get event "glue_job_result") in
  try_except (glue_job_results_body rt athena environment glue_job_result)
             glue_job_results_handler Glue.initial.

(** ** [lambda_handler] of [pipeline-validator.py] *)

(** The dict [result] before the common fields are added. *)
Inductive RoutedResult : Type :=
| GlueJobResults (r : Glue.Validation)
| ScdIntegrity (r : ScdValidation)
| UnknownType (validation_passed : bool) (error : string).

(** The dict [lambda_handler] returns: [result] with the common fields, or
    the dict of its [except] block. *)
Inductive HandlerResult : Type :=
| Validated (result : RoutedResult)
            (validation_type execution_id environment : PyVal) (validated_at : string)
| HandlerError (validation_passed : bool) (error : string)
               (execution_id validation_type : PyVal).

(** [result['validation_passed']]. *)
Definition result_validation_passed (r : HandlerResult) : bool :=
  match r with
  | Validated (GlueJobResults g) _ _ _ _ => Glue.validation_passed g
  | Validated (ScdIntegrity s) _ _ _ _ => validation_passed s
  | Validated (UnknownType p _) _ _ _ _ => p
  | HandlerError p _ _ _ => p
  end.

(** [result.get('error')]. *)
Definition result_error (r : HandlerResult) : option string :=
  match r with
  | Validated (UnknownType _ e) _ _ _ _ => Some e
  | Validated _ _ _ _ _ => None
  | HandlerError _ e _ _ => Some e
  end.

Definition result_validation_type (r : HandlerResult) : option PyVal :=
  match r with
  | Validated _ vt _ _ _ => Some vt
  | HandlerError _ _ _ vt => Some vt
  end.

Definition result_execution_id (r : HandlerResult) : option PyVal :=
  match r with
  | Validated _ _ ex _ _ => Some ex
  | HandlerError _ _ ex _ => Some ex
  end.

Definition result_environment (r : HandlerResult) : option PyVal :=
  match r with
  | Validated _ _ _ env _ => Some env
  | HandlerError _ _ _ _ => None
  end.

Definition result_validated_at (r : HandlerResult) : option string :=
  match r with
  | Validated _ _ _ _ at_ => Some at_
  | HandlerError _ _ _ _ => None
  end.

(** A dict of the event type: [event.get] is defined on it. *)
Definition as_dict (event : PyVal) : Event :=
  match event with
  | PDict d => d
  | _ => []
  end.

(** The [try] block of [lambda_handler]. *)
Definition lambda_handler_body (rt : Runtime) (athena : Athena) (event : PyVal)
    : Res HandlerResult :=
  validation_type ← py_get event "validation_type" (PStr "unknown");
  execution_id ← py_get event "execution_id" (PStr "unknown");
  environment ← py_get event "environment" (PStr (DEFAULT_ENVIRONMENT rt));
  let result :=
    if is_str "glue_job_results" validation_type then
      GlueJobResults (validate_glue_job_results rt athena (as_dict event) environment)
    else if is_str "scd_integrity" validation_type then
      ScdIntegrity (validate_scd_integrity athena (as_dict event) environment)
    else
      UnknownType false ("Unknown validation type: " +:+ py_str rt validation_type) in
  mret (Validated result validation_type execution_id environment (now_isoformat rt)).

(** [lambda_handler(event, context)]; [Raise] is an exception that leaves
    the handler. *)
Definition lambda_handler (rt : Runtime) (athena : Athena) (event : PyVal)
    : Res HandlerResult :=
  match lambda_handler_body rt athena event with
  | Ok result => Ok result
  | Raise e =>
      execution_id ← py_get event "execution_id" (PStr "unknown");
      validation_type ← py_get event "validation_type" (PStr "unknown");
      mret (HandlerError false (exc_str e) execution_id validation_type)
  end.

(** ** [error-handler.py]: dispatch on the error type *)

Module ErrorHandler.

(** The dict [error_info] a handler returns; [failed_validations] and
    [data_quality_score] are keys of [handle_data_quality_failure] only. *)
Record ErrorInfo : Type := {
  error_category : string;
  severity : string;
  cause : PyVal;
  error_message : PyVal;
  failed_validations : option PyVal;
  data_quality_score : option PyVal;
  recommended_actions : list string;
  investigation_steps : list string
}.

(** A handler function [(event, environment) -> error_info]. *)
Definition Handler : Type := Event -> PyVal -> Res ErrorInfo.

Definition handle_glue_job_failure : Handler := fun event environment =>
  let error_details := default (PDict []) (dict_get event "error_details") in
  cause ← py_get error_details "Cause" (PStr "Unknown Glue job failure");
  message ← py_get error_details "Error" (PStr "Glue job execution failed");
  mret {| error_category := "glue_job_failure";
          severity := "HIGH";
          cause := cause;
          error_message := message;
          failed_validations := None;
          data_quality_score := None;
          recommended_actions :=
            ["Check Glue job logs in CloudWatch";
             "Verify Salesforce API connectivity and credentials";
             "Check S3 bucket permissions and Iceberg table configuration";
             "Review Glue job script for syntax errors";
             "Verify AWS Secrets Manager access for Salesforce credentials"];
          investigation_steps :=
            ["Review /aws/glue/jobs/sf-user-ingestion-job log group";
             "Check Salesforce API rate limits and quotas";
             "Verify S3 bucket access and Iceberg table schema";
             "Test Salesforce connection manually"] |}.

Definition handle_validation_failure : Handler := fun event environment =>
  let error_details := default (PDict []) (dict_get event "error_details") in
  cause ← py_get error_details "Cause" (PStr "Data validation failed");
  message ← py_get error_details "Error" (PStr "Pipeline validation step failed");
  mret {| error_category := "validation_failure";
          severity := "MEDIUM";
          cause := cause;
          error_message := message;
          failed_validations := None;
          data_quality_score := None;
          recommended_actions :=
            ["Check validation Lambda function logs";
             "Review data quality validation rules";
             "Verify Iceberg table data integrity";
             "Check for schema changes in source data"];
          investigation_steps :=
            ["Review /aws/lambda/sf-user-pipeline-validator logs";
             "Query raw Iceberg tables for data anomalies";
             "Check Salesforce schema changes";
             "Validate data volume and distribution"] |}.

Definition handle_data_quality_failure (rt : Runtime) : Handler := fun event environment =>
  let validation_result := default (PDict []) (dict_get event "validation_result") in
  payload ← (if py_truthy validation_result
             then py_get validation_result "Payload" (PDict [])
             else Ok (PDict []));
  shown ← py_get payload "data_quality_score" (PStr "unknown");
  failed ← py_get payload "failed_validations" (PList []);
  score ← py_get payload "data_quality_score" PNone;
  mret {| error_category := "data_quality_failure";
          severity := "HIGH";
          cause := PStr "Data quality validation failed - data does not meet quality thresholds";
          error_message := PStr ("Data quality score: " +:+ py_str rt shown +:+ "%");
          failed_validations := Some failed;
          data_quality_score := Some score;
          recommended_actions :=
            ["Review failed data quality validations";
             "Check for data corruption in source system";
             "Verify field mappings and transformations";
             "Review data quality thresholds and rules"];
          investigation_steps :=
            ["Query raw sf_user data for anomalies";
             "Check Salesforce data quality at source";
             "Review dbt test results and failures";
             "Analyze data distribution and patterns"] |}.

Definition handle_dbt_run_failure : Handler := fun event environment =>
  let error_details := default (PDict []) (dict_get event "error_details") in
  cause ← py_get error_details "Cause" (PStr "dbt model execution failed");
  message ← py_get error_details "Error" (PStr "dbt run command failed");
  mret {| error_category := "dbt_run_failure";
          severity := "HIGH";
          cause := cause;
          error_message := message;
          failed_validations := None;
          data_quality_score := None;
          recommended_actions :=
            ["Check dbt runner Lambda function logs";
             "Review dbt model SQL for syntax errors";
             "Verify Athena/Glue Catalog connectivity";
             "Check Iceberg table permissions and configuration"];
          investigation_steps :=
            ["Review /aws/lambda/sf-user-dbt-runner logs";
             "Test dbt models individually";
             "Check Athena query history for errors";
             "Verify dbt profiles and connection settings"] |}.

Definition handle_dbt_test_failure : Handler := fun event environment =>
  let error_details := default (PDict []) (dict_get event "error_details") in
  cause ← py_get error_details "Cause" (PStr "dbt tests failed");
  message ← py_get error_details "Error" (PStr "dbt test command failed");
  mret {| error_category := "dbt_test_failure";
          severity := "MEDIUM";
          cause := cause;
          error_message := message;
          failed_validations := None;
          data_quality_score := None;
          recommended_actions :=
            ["Review failed dbt test results";
             "Check data quality in transformed tables";
             "Verify SCD Type 2 logic correctness";
             "Review test thresholds and expectations"];
          investigation_steps :=
            ["Run dbt tests individually to identify failures";
             "Query dim_sf_user_scd table for data issues";
             "Check SCD integrity and currency flags";
             "Review test definitions and logic"] |}.

Definition handle_scd_validation_failure : Handler := fun event environment =>
  let error_details := default (PDict []) (dict_get event "error_details") in
  cause ← py_get error_details "Cause" (PStr "SCD Type 2 validation failed");
  message ← py_get error_details "Error" (PStr "SCD integrity validation failed");
  mret {| error_category := "scd_validation_failure";
          severity := "HIGH";
          cause := cause;
          error_message := message;
          failed_validations := None;
          data_quality_score := None;
          recommended_actions :=
            ["Check SCD Type 2 logic in dbt models";
             "Verify historical tracking for Division and Audit_Phase__c";
             "Review SCD integrity test results";
             "Check for duplicate or missing SCD records"];
          investigation_steps :=
            ["Query dim_sf_user_scd for SCD integrity issues";
             "Check is_current flag management";
             "Verify SCD record versioning and dating";
             "Review SCD macro logic and implementation"] |}.

Definition handle_unknown_error (rt : Runtime) : Handler := fun event environment =>
  let error_details := default (PDict []) (dict_get event "error_details") in
  mret {| error_category := "unknown_error";
          severity := "MEDIUM";
          cause := PStr "Unknown or unclassified pipeline error";
          error_message := PStr (py_str rt error_details);
          failed_validations := None;
          data_quality_score := None;
          recommended_actions :=
            ["Review Step Functions execution logs";
             "Check all Lambda function logs";
             "Verify pipeline configuration and permissions";
             "Contact support team for assistance"];
          investigation_steps :=
            ["Review Step Functions execution history";
             "Check CloudWatch logs for all pipeline components";
             "Verify AWS service status and quotas";
             "Review recent pipeline or infrastructure changes"] |}.

(** The dict [handlers] of [get_error_handler]. *)
Definition handlers (rt : Runtime) : gmap string Handler :=
  <["glue_job_failure" := handle_glue_job_failure]>
  (<["validation_failure" := handle_validation_failure]>
  (<["data_quality_failure" := handle_data_quality_failure rt]>
  (<["dbt_run_failure" := handle_dbt_run_failure]>
  (<["dbt_test_failure" := handle_dbt_test_failure]>
  (<["scd_validation_failure" := handle_scd_validation_failure]> ∅))))).

(** [handlers.get(error_type, handle_unknown_error)]. *)
Definition get_error_handler (rt : Runtime) (error_type : string) : Handler :=
  default (handle_unknown_error rt) (handlers rt !! error_type).

(** The six error types of the taxonomy. *)
Definition known_error_types : list string :=
  ["glue_job_failure"; "validation_failure"; "data_quality_failure";
   "dbt_run_failure"; "dbt_test_failure"; "scd_validation_failure"].

End ErrorHandler.

(** ** The History Merger *)

Module Merger.

(** Modelled from the spec: the Snapshot Record of section 3.  The
    Change Detector and the History Merger live in the dbt macros
    [scd_type2_sf_user.sql] and [scd_merge_sf_user.sql], which are not
    among the sources; every definition of this module follows
    sections 3, 4.1, 4.2 and 5 of the specification. *)
Record Snapshot : Type := {
  entity_id : string;
  attributes : gmap string string;
  observed_at : Z;
  active : bool
}.

(** Modelled from the spec: the Historized Record of section 3;
    [valid_to = None] is the open-ended sentinel. *)
Record Historized : Type := {
  h_entity_id : string;
  version_attributes : gmap string string;
  valid_from : Z;
  valid_to : option Z;
  is_current : bool;
  is_deleted : bool;
  updated_at : Z
}.

(** Modelled from the spec: the monitored fields [division] and
    [audit_phase] (section 3). *)
Definition monitored_fields : list string := ["division"; "audit_phase"].

(** Modelled from the spec: the values of the monitored fields, an absent
    field being a value of its own; the comparison is exact (section 4.1). *)
Definition monitored (a : gmap string string) : list (option string) :=
  (fun f => a !! f) <$> monitored_fields.

(** Modelled from the spec: the classification of section 4.1. *)
Inductive Change : Type := NEW | UNCHANGED | CHANGED | REACTIVATED | DEACTIVATED.

(** Modelled from the spec: the current Historized Record of an entity,
    the table being keyed by [entity_id] (section 4.2). *)
Definition current_of (T : list Historized) (e : string) : option Historized :=
  List.find (fun h => bool_decide (h_entity_id h = e) && is_current h) T.

(** Modelled from the spec: the Change Detector (section 4.1).  Without a
    current row the record is [NEW]; a change of the activity is looked
    at before the monitored fields, as Scenario D requires (a snapshot
    that only turns inactive closes the current row). *)
Definition detect (s : Snapshot) (cur : option Historized) : Change :=
  match cur with
  | None => NEW
  | Some h =>
      if is_deleted h && active s then REACTIVATED
      else if negb (is_deleted h) && negb (active s) then DEACTIVATED
      else if bool_decide (monitored (version_attributes h) = monitored (attributes s))
           then UNCHANGED
           else CHANGED
  end.

(** Modelled from the spec: closing a version sets [valid_to] and flips
    [is_current], nothing else (section 3, lifecycle). *)
Definition close (at_ : Z) (h : Historized) : Historized :=
  {| h_entity_id := h_entity_id h;
     version_attributes := version_attributes h;
     valid_from := valid_from h;
     valid_to := Some at_;
     is_current := false;
     is_deleted := is_deleted h;
     updated_at := updated_at h |}.

(** Modelled from the spec: close the current row of entity [e]. *)
Fixpoint close_current (e : string) (at_ : Z) (T : list Historized) : list Historized :=
  match T with
  | [] => []
  | h :: T' =>
      if bool_decide (h_entity_id h = e) && is_current h
      then close at_ h :: T'
      else h :: close_current e at_ T'
  end.

(** Modelled from the spec: the version a merge inserts (section 4.2);
    [now] is the time of the merge operation. *)
Definition new_version (now : Z) (s : Snapshot) (deleted : bool) : Historized :=
  {| h_entity_id := entity_id s;
     version_attributes := attributes s;
     valid_from := observed_at s;
     valid_to := None;
     is_current := true;
     is_deleted := deleted;
     updated_at := now |}.

(** Modelled from the spec: what happens to one record of a batch. *)
Inductive Outcome : Type :=
| StaleSnapshotDiscarded
| Classified (c : Change).

(** Modelled from the spec: a snapshot older than the current row's
    [valid_from] is refused (section 5). *)
Definition stale (s : Snapshot) (cur : option Historized) : bool :=
  match cur with
  | Some h => observed_at s <? valid_from h
  | None => false
  end.

(** Modelled from the spec: the merge unit of one entity (section 4.2):
    the new table, the outcome and the number of rows written. *)
Definition merge_one (now : Z) (T : list Historized) (s : Snapshot)
    : list Historized * Outcome * nat :=
  let cur := current_of T (entity_id s) in
  if stale s cur then (T, StaleSnapshotDiscarded, 0%nat)
  else
    match detect s cur with
    | NEW => ((T ++ [new_version now s false])%list, Classified NEW, 1%nat)
    | UNCHANGED => (T, Classified UNCHANGED, 0%nat)
    | CHANGED =>
        ((close_current (entity_id s) (observed_at s) T
            ++ [new_version now s (from_option is_deleted false cur)])%list,
         Classified CHANGED, 2%nat)
    | REACTIVATED =>
        ((close_current (entity_id s) (observed_at s) T ++ [new_version now s false])%list,
         Classified REACTIVATED, 2%nat)
    | DEACTIVATED =>
        ((close_current (entity_id s) (observed_at s) T ++ [new_version now s true])%list,
         Classified DEACTIVATED, 2%nat)
    end.

(** Modelled from the spec: the tie-break of section 4.2; a snapshot is
    dropped when the batch holds one of the same entity with a greater
    [observed_at]. *)
Definition superseded (B : list Snapshot) (s : Snapshot) : bool :=
  existsb (fun s' => bool_decide (entity_id s' = entity_id s)
                     && (observed_at s <? observed_at s')) B.

(** Modelled from the spec: the summary of a batch. *)
Record MergeResult : Type := {
  table : list Historized;
  outcomes : list Outcome;
  writes : nat
}.

(** Modelled from the spec: the records of a batch [B] are merged in
    their order, one merge unit each. *)
Fixpoint merge_all (now : Z) (B pending : list Snapshot) (T : list Historized)
    : MergeResult :=
  match pending with
  | [] => {| table := T; outcomes := []; writes := 0 |}
  | s :: rest =>
      let '(T', o, w) :=
        if superseded B s then (T, StaleSnapshotDiscarded, 0%nat)
        else merge_one now T s in
      let r := merge_all now B rest T' in
      {| table := table r; outcomes := o :: outcomes r; writes := w + writes r |}
  end.

(** Modelled from the spec: the History Merger on a batch (section 4.2). *)
Definition merge_batch (now : Z) (T : list Historized) (B : list Snapshot) : MergeResult :=
  merge_all now B B T.

(** Modelled from the spec: the idempotence property of section 8 on one
    table and batch; [now] and [now'] are the times of the two merges. *)
Definition remerge_is_noop (now now' : Z) (T : list Historized) (B : list Snapshot) : Prop :=
  let once := merge_batch now T B in
  let twice := merge_batch now' (table once) B in
  table twice = table once
  /\ Forall (fun o => o = Classified UNCHANGED) (outcomes twice)
  /\ writes twice = 0%nat.







Definition snapshot (e division : string) (at_ : Z) (act : bool) : Snapshot :=
  {| entity_id := e; attributes := {["division" := division]};
     observed_at := at_; active := act |}.

End Merger.

(** ** Vocabulary of the claims and sample inputs *)

(** Section 4.3, current uniqueness: a user with a version that is not
    deleted and without any current row is reported. *)
Definition zero_current_is_flagged (t : Table) (r : UniquenessResult) : Prop :=
  forall u, u ∈ live_users t -> current_count t u = 0%nat ->
    cu_passed r = false /\ 0 < cu_error_count r.


(** Section 4.3: three structural checks, hence three distinct entries of
    [validations_performed]. *)
Definition performs_three_checks (r : ScdValidation) : Prop :=
  exists uniqueness continuity consistency : string,
    NoDup [uniqueness; continuity; consistency]
    /\ uniqueness ∈ validations_performed r
    /\ continuity ∈ validations_performed r
    /\ consistency ∈ validations_performed r.

(** An Athena whose every call fails. *)
Definition athena_down : Athena := fun _ => ClientRaises (PlainException "unreachable").

Definition scd_row (u : string) (d : Z) (current deleted : bool) : ScdRow :=
  {| user_id := u; update_date := d; is_current := current; is_deleted := deleted |}.

(** The exception, if there is one, that the validator chosen for [event]
    catches in its own [except] block. *)
Definition caught_exception (rt : Runtime) (athena : Athena) (event : Event) : option PyExc :=
  let validation_type := default (PStr "unknown") (dict_get event "validation_type") in
  let environment := default (PStr (DEFAULT_ENVIRONMENT rt)) (dict_get event "environment") in
  let outcome :=
    if is_str "glue_job_results" validation_type then
      (glue_job_results_body rt athena environment
         (default (PDict []) (dict_get event "glue_job_result")) Glue.initial).1
    else if is_str "scd_integrity" validation_type then
      (scd_integrity_run athena event environment).1
    else Ok tt in
  match outcome with
  | Raise e => Some e
  | Ok _ => None
  end.

(** A runtime to evaluate examples with. *)
Definition sample_runtime : Runtime :=
  {| container_str := fun _ => "{}";
     now_isoformat := "2024-05-01T06:00:00+00:00";
     hours_since := fun _ => Ok 1%Q;
     format_1f := fun _ => "1.0";
     DEFAULT_ENVIRONMENT := "dev" |}.

(** An event whose dbt payload arrives as text instead of a dict. *)
Definition event_text_payload : Event :=
  [("validation_type", PStr "scd_integrity");
   ("dbt_test_result", PDict [("Payload", PStr "tests_failed: 2")])].

(** One check passes, the other fails: two closed versions, none current. *)
Definition T_two_closed : Table := [scd_row "E1" 1 false false; scd_row "E1" 2 false false].

(** A history as a merge leaves it: two closed versions, then the current
    one. *)
Definition T_three_versions : Table :=
  [scd_row "E1" 1 false false; scd_row "E1" 2 false false; scd_row "E1" 3 true false].

(** A single version that is closed although nothing follows it. *)
Definition T_closed_last : Table := [scd_row "E1" 1 false false].

(** The part of the result dict that the dbt section never writes. *)
Definition same_checks (s s' : ScdValidation) : Prop :=
  validations_performed s' = validations_performed s
  /\ validation_details s' = validation_details s
  /\ integrity_score s' = integrity_score s.

Definition checked_details (athena : Athena) (environment : PyVal) : list (string * CheckDetail) :=
  [("current_uniqueness", CurrentUniquenessDetail (validate_scd_current_uniqueness athena environment));
   ("historical_integrity", HistoricalIntegrityDetail (validate_scd_historical_integrity athena environment))].

Definition passed_of (details : list (string * CheckDetail)) : nat :=
  length (filter (fun kv => detail_passed kv.2 = true) details).

(** Outcome of a run: either the dbt section raised before any check was
    recorded, or both checks were recorded and scored. *)
Inductive ScdOutcome (athena : Athena) (environment : PyVal) (r : ScdValidation) : Res unit -> Prop :=
| ScdRaised e :
    validations_performed r = [] ->
    validation_details r = [] ->
    integrity_score r = 0%Q ->
    validation_passed r = false ->
    ScdOutcome athena environment r (Raise e)
| ScdScored :
    validations_performed r = ["scd_current_uniqueness"; "scd_historical_integrity"] ->
    validation_details r = checked_details athena environment ->
    integrity_score r = score_of (passed_of (checked_details athena environment)) 2 ->
    ScdOutcome athena environment r (Ok tt).

(** The dict made from a two-column row. *)
Definition two_columns (c1 c2 : string) (g : string * nat) : AthenaRow :=
  <[c2 := str_of_int (Z.of_nat g.2)]> (<[c1 := g.1]> ∅).

Definition T_no_current : Table := [scd_row "E2" 1 false false].

(** Eleven users with two current rows each. *)
Definition T_eleven_duplicates : Table :=
  u ← ["U01"; "U02"; "U03"; "U04"; "U05"; "U06"; "U07"; "U08"; "U09"; "U10"; "U11"];
  [scd_row u 1 true false; scd_row u 1 true false].


(** * Properties *)

(** ** The state left by the two parts of the [try] block *)

Lemma scd_dbt_results_same_checks dbt s :
  same_checks s (scd_dbt_results dbt s).2.
Proof.
  unfold scd_dbt_results, same_checks, mbind, st_bind, lift, when, modify, mret, st_ret.
  destruct (if py_truthy dbt then py_contains "Payload" dbt else Ok false) as [[|]|e]; simpl; auto.
  destruct (py_getitem dbt "Payload") as [payload|e]; simpl; auto.
  destruct (py_get payload "tests_failed" (PInt 0)) as [tf|e]; simpl; auto.
  destruct (py_compare_int ">" tf) as [n|e]; simpl; auto.
  destruct (0 <? n); simpl; auto.
Qed.

Lemma scd_checks_fresh athena environment s :
  validations_performed s = [] ->
  validation_details s = [] ->
  exists s',
    scd_checks athena environment s = (Ok tt, s')
    /\ validations_performed s' = ["scd_current_uniqueness"; "scd_historical_integrity"]
    /\ validation_details s' = checked_details athena environment
    /\ integrity_score s' = score_of (passed_of (checked_details athena environment)) 2.
Proof.
  intros Hp Hd.
  unfold scd_checks, mbind, st_bind, when, modify, gets, mret, st_ret.
  destruct (cu_passed (validate_scd_current_uniqueness athena environment)) eqn:Hcu;
  destruct (hi_passed (validate_scd_historical_integrity athena environment)) eqn:Hhi;
    simpl; rewrite ?Hp, ?Hd; simpl; eexists; (split; [reflexivity|]);
    simpl; rewrite ?Hp, ?Hd; simpl; repeat split;
    unfold passed_validations, passed_of, checked_details; simpl; rewrite ?Hp, ?Hd; reflexivity.
Qed.

Lemma validate_scd_integrity_outcome athena event environment :
  ScdOutcome athena environment
    (validate_scd_integrity athena event environment)
    (scd_integrity_run athena event environment).1.
Proof.
  unfold validate_scd_integrity, scd_integrity_run, try_except, scd_integrity_body.
  set (dbt := default (PDict []) (dict_get event "dbt_test_result")).
  unfold mbind, st_bind.
  pose proof (scd_dbt_results_same_checks dbt initial_scd_validation) as (Hp & Hd & Hs).
  destruct (scd_dbt_results dbt initial_scd_validation) as [[[]|e] s]; simpl in *.
  - destruct (scd_checks_fresh athena environment s Hp Hd) as (s' & -> & Hp' & Hd' & Hs').
    simpl. by constructor.
  - constructor; simpl; auto.
Qed.

Lemma score_of_bounds (p n : nat) :
  (p <= n)%nat -> (0 < n)%nat -> (0 <= score_of p n <= 100)%Q.
Proof.
  intros Hpn Hn. unfold score_of.
  assert (H0 : (0 <= inject_Z (Z.of_nat p))%Q) by (unfold Qle; simpl; lia).
  assert (Hn' : (0 < inject_Z (Z.of_nat n))%Q) by (unfold Qlt; simpl; lia).
  assert (Hle : (inject_Z (Z.of_nat p) <= inject_Z (Z.of_nat n))%Q) by (unfold Qle; simpl; lia).
  split.
  - apply Qmult_le_0_compat; [|discriminate].
    apply Qle_shift_div_l; [done|]. by rewrite Qmult_0_l.
  - apply Qle_trans with (1 * 100)%Q; [|by rewrite Qmult_1_l; apply Qle_refl].
    apply Qmult_le_compat_r; [|discriminate].
    apply Qle_shift_div_r; [done|]. by rewrite Qmult_1_l.
Qed.

Lemma score_of_lt_100 (p n : nat) :
  (p < n)%nat -> (score_of p n < 100)%Q.
Proof.
  intros Hpn. unfold score_of.
  assert (Hn' : (0 < inject_Z (Z.of_nat n))%Q) by (unfold Qlt; simpl; lia).
  assert (Hlt : (inject_Z (Z.of_nat p) < inject_Z (Z.of_nat n))%Q) by (unfold Qlt; simpl; lia).
  apply Qlt_le_trans with (1 * 100)%Q; [|by rewrite Qmult_1_l; apply Qle_refl].
  apply Qmult_lt_compat_r; [reflexivity|].
  apply Qlt_shift_div_r; [done|]. by rewrite Qmult_1_l.
Qed.

Lemma passed_of_le details : (passed_of details <= length details)%nat.
Proof. unfold passed_of. apply length_filter. Qed.

(** C1. When the [try] block of [validate_scd_integrity] completes without
    an exception, every performed check has one result in
    [validation_details] and [integrity_score] is the number of results
    with [passed = true], divided by the number of entries of
    [validations_performed], times 100. *)
Theorem integrity_score_is_pass_ratio athena event environment :
  (scd_integrity_run athena event environment).1 = Ok tt ->
  let r := validate_scd_integrity athena event environment in
  length (validation_details r) = length (validations_performed r)
  /\ (integrity_score r ==
      inject_Z (Z.of_nat (length (filter (fun kv => detail_passed kv.2 = true) (validation_details r))))
      / inject_Z (Z.of_nat (length (validations_performed r))) * 100)%Q.
Proof.
  intros Hrun r. subst r.
  destruct (validate_scd_integrity_outcome athena event environment) as [e|Hp Hd Hs];
    [discriminate|].
  rewrite Hp, Hd, Hs. split; [reflexivity|]. reflexivity.
Qed.

Lemma integrity_score_is_pass_ratio_witness :
  let athena := athena_on T_two_closed athena_down in
  (scd_integrity_run athena [] (PStr "dev")).1 = Ok tt
  /\ (integrity_score (validate_scd_integrity athena [] (PStr "dev")) == 50)%Q.
Proof.
  intros athena.
  assert (Hrun : (scd_integrity_run athena [] (PStr "dev")).1 = Ok tt) by (vm_compute; reflexivity).
  split; [exact Hrun|].
  destruct (integrity_score_is_pass_ratio athena [] (PStr "dev") Hrun) as [_ Hscore].
  rewrite Hscore. vm_compute. reflexivity.
Defined.

(** ** Reading query results back *)


Lemma parse_rows_two_columns c1 c2 (l : list (string * nat)) :
  parse_rows [c1; c2] ((fun g => [Some g.1; Some (str_of_int (Z.of_nat g.2))]) <$> l)
  = Ok (two_columns c1 c2 <$> l).
Proof.
  induction l as [|g l IH]; [reflexivity|].
  rewrite !fmap_cons. simpl. rewrite IH. reflexivity.
Qed.

Lemma execute_current_uniqueness t other :
  execute_athena_query (athena_on t other) QCurrentUniqueness
  = Ok (two_columns "user_id" "current_record_count" <$> current_uniqueness_sql t).
Proof. apply parse_rows_two_columns. Qed.


(** ** The current-uniqueness query *)

Lemma group_count (rows : list ScdRow) :
  (fun g : string * list ScdRow => (g.1, length g.2)) <$> group_by_user rows
  = (fun u => (u, length (filter (fun r => user_id r = u) rows)))
      <$> remove_dups (user_id <$> rows).
Proof. unfold group_by_user. by rewrite <- list_fmap_compose. Qed.

Lemma current_count_filter t u :
  length (filter (fun r => user_id r = u)
            (filter (fun r => is_current r = true /\ is_deleted r = false) t))
  = current_count t u.
Proof.
  unfold current_count. by rewrite list_filter_filter.
Qed.

(** The query as a selection among the users that have a current row. *)
Lemma current_uniqueness_sql_eq t :
  current_uniqueness_sql t
  = filter (fun g => (1 < g.2)%nat)
      ((fun u => (u, current_count t u))
         <$> remove_dups (user_id <$> filter (fun r => is_current r = true /\ is_deleted r = false) t)).
Proof.
  unfold current_uniqueness_sql. rewrite group_count. f_equal.
  apply list_fmap_ext. intros _ u _. by rewrite current_count_filter.
Qed.

(** The query flags exactly the users with more than one current row. *)
Lemma current_uniqueness_sql_flags t u :
  u ∈ (current_uniqueness_sql t).*1 <-> (1 < current_count t u)%nat.
Proof.
  rewrite current_uniqueness_sql_eq, list_elem_of_fmap. split.
  - intros ([u' c] & -> & Hin). apply list_elem_of_filter in Hin as [Hc Hin].
    apply list_elem_of_fmap in Hin as (u'' & [= -> ->] & _). done.
  - intros Hc. exists (u, current_count t u). split; [done|].
    apply list_elem_of_filter. split; [done|].
    apply (list_elem_of_fmap_2 (fun u => (u, current_count t u))), elem_of_remove_dups.
    unfold current_count in Hc.
    destruct (filter _ t) as [|r l] eqn:Hf in Hc; [simpl in Hc; lia|].
    assert (Hr : r ∈ filter (fun r => user_id r = u /\ is_current r = true /\ is_deleted r = false) t)
      by (rewrite Hf; left).
    apply list_elem_of_filter in Hr as [(<- & Hcur & Hdel) Hr].
    apply (list_elem_of_fmap_2 user_id), list_elem_of_filter. done.
Qed.

Lemma current_uniqueness_sql_count t u c :
  (u, c) ∈ current_uniqueness_sql t -> c = current_count t u.
Proof.
  rewrite current_uniqueness_sql_eq.
  intros Hin. apply list_elem_of_filter in Hin as [_ Hin].
  by apply list_elem_of_fmap in Hin as (u' & [= -> ->] & _).
Qed.

Lemma current_uniqueness_sql_NoDup t : NoDup (current_uniqueness_sql t).*1.
Proof.
  rewrite current_uniqueness_sql_eq.
  set (ks := remove_dups _).
  assert (Hks : NoDup ks) by apply NoDup_remove_dups.
  clearbody ks. induction Hks as [|k ks Hk Hks IH]; [constructor|].
  rewrite fmap_cons, filter_cons. destruct (decide _); [|done].
  rewrite fmap_cons. constructor; [|done].
  simpl. intros Hin. apply list_elem_of_fmap in Hin as ([u c] & -> & Hin).
  apply list_elem_of_filter in Hin as [_ Hin].
  apply list_elem_of_fmap in Hin as (u' & [= -> ->] & Hin). done.
Qed.

Lemma NoDup_singleton_length {A} (l : list A) a :
  NoDup l -> (forall x, x ∈ l <-> x = a) -> length l = 1%nat.
Proof.
  intros Hnd Hl.
  assert (Hp : l ≡ₚ [a]).
  { apply NoDup_Permutation; [done|apply NoDup_singleton|].
    intros x. rewrite Hl. by rewrite list_elem_of_singleton. }
  by rewrite Hp.
Qed.

(** What [validate_scd_current_uniqueness] returns when the query ran. *)
Lemma validate_scd_current_uniqueness_rows athena environment rows :
  execute_athena_query athena QCurrentUniqueness = Ok rows ->
  validate_scd_current_uniqueness athena environment
  = {| cu_passed := bool_decide (rows = []);
       cu_duplicate_current_records := Some (Z.of_nat (length rows));
       cu_error_count := Z.of_nat (length rows);
       cu_details := Some (take 10 rows);
       cu_error_message := None |}.
Proof.
  intros H. unfold validate_scd_current_uniqueness. rewrite H.
  destruct rows; reflexivity.
Qed.

(** ** Current uniqueness *)

(** C2, as amended.  On a table [t] the current-uniqueness check flags
    exactly the users with more than one row that is current and not
    deleted, each once; [error_count] is their number, the check passes
    when there is none, and [details] holds the first ten result rows. *)
Theorem current_uniqueness_flags_duplicates t other environment :
  let r := validate_scd_current_uniqueness (athena_on t other) environment in
  let flagged := (current_uniqueness_sql t).*1 in
  NoDup flagged
  /\ (forall u, u ∈ flagged <-> (1 < current_count t u)%nat)
  /\ cu_error_count r = Z.of_nat (length flagged)
  /\ cu_passed r = bool_decide (flagged = [])
  /\ cu_details r
     = Some (take 10 (two_columns "user_id" "current_record_count" <$> current_uniqueness_sql t)).
Proof.
  intros r flagged. subst r flagged.
  rewrite (validate_scd_current_uniqueness_rows _ _ _ (execute_current_uniqueness t other)).
  simpl. rewrite !length_fmap.
  split; [apply current_uniqueness_sql_NoDup|].
  split; [apply current_uniqueness_sql_flags|].
  split; [done|]. split; [|done].
  by destruct (current_uniqueness_sql t).
Qed.

(** Counterexample to C2: user E2 has a version that is not deleted and no
    current row, and the check passes with [error_count = 0]. *)
Lemma zero_current_not_flagged :
  ~ zero_current_is_flagged T_no_current
      (validate_scd_current_uniqueness (athena_on T_no_current athena_down) (PStr "dev")).
Proof.
  intros H. destruct (H "E2") as [Hp _]; [|reflexivity|discriminate Hp].
  vm_compute. left.
Qed.

(** C5.  When user [E1] has exactly two rows that are current and not
    deleted and every other user has at most one, the current-uniqueness
    check reports [error_count = 1] and [validate_scd_integrity] returns a
    score below 100. *)
Theorem two_current_rows_reported t other event environment E1 :
  current_count t E1 = 2%nat ->
  (forall u, u <> E1 -> (current_count t u <= 1)%nat) ->
  cu_error_count (validate_scd_current_uniqueness (athena_on t other) environment) = 1
  /\ (integrity_score (validate_scd_integrity (athena_on t other) event environment) < 100)%Q.
Proof.
  intros HE1 Hothers.
  pose proof (current_uniqueness_sql_NoDup t) as Hnd.
  pose proof (current_uniqueness_sql_flags t) as Hflag.
  pose proof (validate_scd_current_uniqueness_rows _ environment _
                (execute_current_uniqueness t other)) as Hcu.
  assert (Hcount : cu_error_count (validate_scd_current_uniqueness (athena_on t other) environment)
                   = Z.of_nat (length (current_uniqueness_sql t).*1))
    by (rewrite Hcu; simpl; by rewrite !length_fmap).
  assert (Hpassed : cu_passed (validate_scd_current_uniqueness (athena_on t other) environment)
                    = bool_decide ((current_uniqueness_sql t).*1 = []))
    by (rewrite Hcu; simpl; by destruct (current_uniqueness_sql t)).
  assert (Hlen : length (current_uniqueness_sql t).*1 = 1%nat).
  { apply (NoDup_singleton_length _ E1); [done|].
    intros u. rewrite Hflag. split.
    - intros Hu. destruct (decide (u = E1)) as [|Hne]; [done|].
      specialize (Hothers u Hne). lia.
    - intros ->. lia. }
  split; [by rewrite Hcount, Hlen|].
  assert (Hfail : cu_passed (validate_scd_current_uniqueness (athena_on t other) environment) = false).
  { rewrite Hpassed. apply bool_decide_eq_false. intros Hnil. by rewrite Hnil in Hlen. }
  destruct (validate_scd_integrity_outcome (athena_on t other) event environment)
    as [e _ _ Hs _|_ _ Hs]; rewrite Hs; [reflexivity|].
  apply score_of_lt_100. unfold passed_of, checked_details.
  rewrite filter_cons_False by (simpl; by rewrite Hfail).
  pose proof (length_filter (fun kv : string * CheckDetail => detail_passed kv.2 = true)
    [("historical_integrity",
      HistoricalIntegrityDetail (validate_scd_historical_integrity (athena_on t other) environment))]).
  simpl in *. lia.
Qed.

Lemma two_current_rows_reported_witness :
  let t := [scd_row "E1" 1 true false; scd_row "E1" 2 true false; scd_row "E9" 1 true false] in
  cu_error_count (validate_scd_current_uniqueness (athena_on t athena_down) (PStr "dev")) = 1
  /\ (integrity_score (validate_scd_integrity (athena_on t athena_down) [] (PStr "dev")) < 100)%Q.
Proof.
  intros t. apply (two_current_rows_reported t athena_down [] (PStr "dev") "E1").
  - reflexivity.
  - intros u Hu. unfold current_count, t.
    rewrite !filter_cons. repeat (destruct (decide _) as [(? & ? & ?)|]; try done); simpl; lia.
Defined.

(** ** Score and sampling cap *)

Lemma cu_error_count_passed athena environment :
  0 < cu_error_count (validate_scd_current_uniqueness athena environment) ->
  cu_passed (validate_scd_current_uniqueness athena environment) = false.
Proof.
  unfold validate_scd_current_uniqueness.
  destruct (execute_athena_query athena QCurrentUniqueness) as [[|row rows]|e]; simpl; [lia|done..].
Qed.

Lemma hi_error_count_passed athena environment :
  0 < hi_error_count (validate_scd_historical_integrity athena environment) ->
  hi_passed (validate_scd_historical_integrity athena environment) = false.
Proof.
  unfold validate_scd_historical_integrity.
  destruct (_ ≫= _) as [[result total]|e]; simpl; [|done].
  intros H. apply Z.eqb_neq. lia.
Qed.

Lemma failed_check_lowers_score athena event environment :
  cu_passed (validate_scd_current_uniqueness athena environment) = false
  \/ hi_passed (validate_scd_historical_integrity athena environment) = false ->
  (integrity_score (validate_scd_integrity athena event environment) < 100)%Q.
Proof.
  intros Hfail.
  destruct (validate_scd_integrity_outcome athena event environment)
    as [e _ _ Hs _|_ _ Hs]; rewrite Hs; [reflexivity|].
  apply score_of_lt_100. unfold passed_of, checked_details.
  rewrite !filter_cons, filter_nil. simpl.
  destruct Hfail as [H|H]; rewrite H; repeat (destruct (decide _); try done); simpl; lia.
Qed.

(** C6.  [details] never holds more than ten rows, while [error_count]
    is the number of all rows the query returned; and when either check
    reports an error count above zero the integrity score is below 100. *)
Theorem sampling_cap_keeps_violations athena event environment :
  let cu := validate_scd_current_uniqueness athena environment in
  let hi := validate_scd_historical_integrity athena environment in
  let r := validate_scd_integrity athena event environment in
  (length (default [] (cu_details cu)) <= 10)%nat
  /\ (forall rows, execute_athena_query athena QCurrentUniqueness = Ok rows ->
        cu_error_count cu = Z.of_nat (length rows) /\ cu_details cu = Some (take 10 rows))
  /\ (0 < cu_error_count cu \/ 0 < hi_error_count hi -> (integrity_score r < 100)%Q).
Proof.
  intros cu hi r. subst cu hi r. split; [|split].
  - unfold validate_scd_current_uniqueness.
    destruct (execute_athena_query athena QCurrentUniqueness) as [[|row rows]|e]; simpl; try lia.
    rewrite length_take. lia.
  - intros rows Hrows.
    by rewrite (validate_scd_current_uniqueness_rows _ _ _ Hrows).
  - intros [H|H]; apply failed_check_lowers_score.
    + left. by apply cu_error_count_passed.
    + right. by apply hi_error_count_passed.
Qed.

Lemma sampling_cap_keeps_violations_witness :
  let athena := athena_on T_eleven_duplicates athena_down in
  let cu := validate_scd_current_uniqueness athena (PStr "dev") in
  cu_error_count cu = 11
  /\ length (default [] (cu_details cu)) = 10%nat
  /\ (integrity_score (validate_scd_integrity athena [] (PStr "dev")) < 100)%Q.
Proof.
  intros athena cu.
  destruct (sampling_cap_keeps_violations athena [] (PStr "dev")) as (_ & Hrows & Hscore).
  destruct (Hrows _ (execute_current_uniqueness T_eleven_duplicates athena_down)) as [Hcount Hdetails].
  fold cu in Hcount, Hdetails.
  split; [rewrite Hcount; vm_compute; reflexivity|].
  split; [rewrite Hdetails; vm_compute; reflexivity|].
  apply Hscore. left. fold cu. rewrite Hcount. vm_compute. reflexivity.
Defined.

(** C7.  The integrity score lies between 0 and 100: it is the ratio of
    passed to performed checks times 100, with passed at most performed,
    when the [try] block completes, and exactly 0 when it raises. *)
Theorem integrity_score_in_range athena event environment :
  let r := validate_scd_integrity athena event environment in
  let passed := length (filter (fun kv => detail_passed kv.2 = true) (validation_details r)) in
  let performed := length (validations_performed r) in
  (0 <= integrity_score r <= 100)%Q
  /\ match (scd_integrity_run athena event environment).1 with
     | Ok _ =>
         (integrity_score r
          == inject_Z (Z.of_nat passed) / inject_Z (Z.of_nat performed) * 100)%Q
         /\ (passed <= performed)%nat
     | Raise _ => integrity_score r = 0%Q
     end.
Proof.
  intros r passed performed. subst r passed performed.
  destruct (validate_scd_integrity_outcome athena event environment)
    as [e Hp Hd Hs _|Hp Hd Hs]; rewrite ?Hp, ?Hd, ?Hs.
  - split; [|reflexivity]. split; discriminate.
  - split; [|split; [reflexivity|]].
    + apply score_of_bounds; [|simpl; lia]. apply (passed_of_le (checked_details _ _)).
    + apply (passed_of_le (checked_details _ _)).
Qed.

(** ** The checks a run performs *)

(** C4, as amended.  A run whose [try] block completes records exactly
    two checks, [scd_current_uniqueness] then [scd_historical_integrity],
    with one result each; a run whose [try] block raises records none. *)
Theorem two_checks_performed athena event environment :
  let r := validate_scd_integrity athena event environment in
  match (scd_integrity_run athena event environment).1 with
  | Ok _ =>
      validations_performed r = ["scd_current_uniqueness"; "scd_historical_integrity"]
      /\ (validation_details r).*1 = ["current_uniqueness"; "historical_integrity"]
  | Raise _ => validations_performed r = [] /\ validation_details r = []
  end.
Proof.
  intros r. subst r.
  destruct (validate_scd_integrity_outcome athena event environment)
    as [e Hp Hd Hs _|Hp Hd Hs]; rewrite Hp, Hd; done.
Qed.

(** Counterexample to C4: a plain run lists two checks, not three, and a
    run whose dbt payload is text lists none. *)
Lemma three_checks_not_performed :
  ~ performs_three_checks (validate_scd_integrity (athena_on [] athena_down) [] (PStr "dev"))
  /\ validations_performed
       (validate_scd_integrity (athena_on [] athena_down) event_text_payload (PStr "dev")) = [].
Proof.
  split; [|reflexivity].
  intros (a & b & c & Hnd & Ha & Hb & Hc).
  assert (Hsub : [a; b; c] ⊆+ ["scd_current_uniqueness"; "scd_historical_integrity"]).
  { apply NoDup_submseteq; [done|].
    intros x Hx. inversion Hx as [|? ? ? Hx']; subst; [exact Ha|].
    inversion Hx' as [|? ? ? Hx'']; subst; [exact Hb|].
    inversion Hx'' as [|? ? ? Hx''']; subst; [exact Hc|]. inversion Hx'''. }
  apply submseteq_length in Hsub. simpl in Hsub. lia.
Qed.

(** No check looks at a final version that is not current: both checks
    pass and the score is 100. *)
Example closed_last_version_passes :
  let r := validate_scd_integrity (athena_on T_closed_last athena_down) [] (PStr "dev") in
  validation_passed r = true /\ (integrity_score r == 100)%Q.
Proof. split; vm_compute; reflexivity. Qed.

(** ** The historical-integrity query *)


















(** The middle version of a regular three-version history counts as a
    gap. *)
Example regular_history_counts_a_gap :
  let r := validate_scd_historical_integrity (athena_on T_three_versions athena_down) (PStr "dev") in
  hi_passed r = false /\ hi_error_count r = 1.
Proof. split; reflexivity. Qed.

(** ** [lambda_handler] *)

Lemma validate_scd_integrity_raised athena event environment e :
  (scd_integrity_run athena event environment).1 = Raise e ->
  validation_passed (validate_scd_integrity athena event environment) = false.
Proof.
  intros H.
  destruct (validate_scd_integrity_outcome athena event environment) as [e' _ _ _ Hp|]; done.
Qed.

Lemma validate_glue_job_results_raised rt athena event environment e :
  (glue_job_results_body rt athena environment
     (default (PDict []) (dict_get event "glue_job_result")) Glue.initial).1 = Raise e ->
  Glue.validation_passed (validate_glue_job_results rt athena event environment) = false.
Proof.
  unfold validate_glue_job_results, try_except.
  destruct (glue_job_results_body _ _ _ _ _) as [[[]|e'] s]; simpl; done.
Qed.

(** C10.  On an event that is a dict, [lambda_handler] returns and does
    not raise; an exception caught inside the chosen validator gives
    [validation_passed = false]; and when [validation_type] is neither
    ['glue_job_results'] nor ['scd_integrity'] the result has
    [validation_passed = false], an error naming the type, and the fields
    [validation_type], [execution_id], [environment] and [validated_at]. *)
Theorem lambda_handler_never_raises rt athena (event : Event) :
  let validation_type := default (PStr "unknown") (dict_get event "validation_type") in
  exists r,
    lambda_handler rt athena (PDict event) = Ok r
    /\ (is_Some (caught_exception rt athena event) -> result_validation_passed r = false)
    /\ (is_str "glue_job_results" validation_type = false ->
        is_str "scd_integrity" validation_type = false ->
        result_validation_passed r = false
        /\ result_error r = Some ("Unknown validation type: " +:+ py_str rt validation_type)
        /\ result_validation_type r = Some validation_type
        /\ result_execution_id r
           = Some (default (PStr "unknown") (dict_get event "execution_id"))
        /\ result_environment r
           = Some (default (PStr (DEFAULT_ENVIRONMENT rt)) (dict_get event "environment"))
        /\ result_validated_at r = Some (now_isoformat rt)).
Proof.
  intros validation_type.
  unfold lambda_handler, lambda_handler_body, caught_exception. simpl.
  fold validation_type.
  destruct (is_str "glue_job_results" validation_type) eqn:Hglue;
    [|destruct (is_str "scd_integrity" validation_type) eqn:Hscd];
    eexists; (split; [reflexivity|]); simpl.
  - split; [|done]. intros [e He].
    destruct (glue_job_results_body _ _ _ _ _).1 as [|e'] eqn:Hbody; [done|].
    by eapply validate_glue_job_results_raised.
  - split; [|done]. intros [e He].
    destruct (scd_integrity_run _ _ _).1 as [|e'] eqn:Hrun; [done|].
    by eapply validate_scd_integrity_raised.
  - split; [by intros [e He]|]. intros _ _. done.
Qed.

Lemma lambda_handler_never_raises_witness :
  exists r,
    lambda_handler sample_runtime athena_down
      (PDict [("validation_type", PStr "data_freshness"); ("execution_id", PStr "run-7")]) = Ok r
    /\ result_validation_passed r = false
    /\ result_error r = Some "Unknown validation type: data_freshness"
    /\ result_execution_id r = Some (PStr "run-7")
    /\ result_environment r = Some (PStr "dev").
Proof.
  destruct (lambda_handler_never_raises sample_runtime athena_down
              [("validation_type", PStr "data_freshness"); ("execution_id", PStr "run-7")])
    as (r & Hr & _ & Hunknown).
  destruct Hunknown as (Hp & He & _ & Hx & Henv & _); [reflexivity|reflexivity|].
  exists r. repeat split; assumption.
Defined.

(** ** [get_error_handler] *)

Module ErrorHandlerFacts.
Import ErrorHandler.

Lemma handlers_unknown rt error_type :
  error_type ∉ known_error_types -> handlers rt !! error_type = None.
Proof.
  unfold known_error_types, handlers. intros H.
  repeat (apply not_elem_of_cons in H as [? H]).
  by rewrite !lookup_insert_ne, lookup_empty.
Qed.

(** C9.  For each of the six known error types [get_error_handler] returns
    the handler of that name, whose result carries the error type as
    [error_category]; for every other string it returns
    [handle_unknown_error], which always returns a result with
    [error_category = 'unknown_error']. *)
Theorem get_error_handler_total rt (error_type : string) :
  (error_type ∈ known_error_types ->
     (forall event environment info,
        get_error_handler rt error_type event environment = Ok info ->
        error_category info = error_type)
     /\ (forall environment, exists info,
           get_error_handler rt error_type [] environment = Ok info))
  /\ (error_type ∉ known_error_types ->
     get_error_handler rt error_type = handle_unknown_error rt
     /\ (forall event environment, exists info,
           handle_unknown_error rt event environment = Ok info
           /\ error_category info = "unknown_error"))
  /\ get_error_handler rt "glue_job_failure" = handle_glue_job_failure
  /\ get_error_handler rt "validation_failure" = handle_validation_failure
  /\ get_error_handler rt "data_quality_failure" = handle_data_quality_failure rt
  /\ get_error_handler rt "dbt_run_failure" = handle_dbt_run_failure
  /\ get_error_handler rt "dbt_test_failure" = handle_dbt_test_failure
  /\ get_error_handler rt "scd_validation_failure" = handle_scd_validation_failure.
Proof.
  split; [|split; [|repeat split; reflexivity]].
  - unfold known_error_types. intros Hin.
    repeat (apply elem_of_cons in Hin as [->|Hin]); [..|by apply elem_of_nil in Hin];
      (split; [|intros environment; eexists; reflexivity]);
      intros event environment info;
      change (get_error_handler rt _) with handle_glue_job_failure
      || change (get_error_handler rt _) with handle_validation_failure
      || change (get_error_handler rt _) with (handle_data_quality_failure rt)
      || change (get_error_handler rt _) with handle_dbt_run_failure
      || change (get_error_handler rt _) with handle_dbt_test_failure
      || change (get_error_handler rt _) with handle_scd_validation_failure;
      unfold handle_glue_job_failure, handle_validation_failure, handle_data_quality_failure,
        handle_dbt_run_failure, handle_dbt_test_failure, handle_scd_validation_failure;
      repeat (match goal with
              | |- context [mbind _ ?m] => destruct m; simpl; try discriminate
              end);
      unfold mret, res_ret; intros [= <-]; reflexivity.
  - intros Hnot. split.
    + unfold get_error_handler. by rewrite handlers_unknown.
    + intros event environment. eexists. split; reflexivity.
Qed.

Lemma get_error_handler_total_witness :
  get_error_handler sample_runtime "" = handle_unknown_error sample_runtime
  /\ exists info, get_error_handler sample_runtime "dbt_run_failure" [] (PStr "dev") = Ok info
                  /\ error_category info = "dbt_run_failure".
Proof.
  destruct (get_error_handler_total sample_runtime "") as (_ & Hunknown & _).
  destruct (get_error_handler_total sample_runtime "dbt_run_failure") as (Hknown & _).
  split.
  - apply Hunknown. vm_compute. intros H.
    repeat (apply elem_of_cons in H as [H|H]; [discriminate H|]). by apply elem_of_nil in H.
  - destruct Hknown as [Hcat Hruns]; [do 3 right; left|].
    destruct (Hruns (PStr "dev")) as [info Hinfo].
    exists info. split; [exact Hinfo|]. by eapply Hcat.
Defined.

End ErrorHandlerFacts.

(** A Lambda payload that is not a dict makes [lambda_handler] raise from
    its own [except] block. *)
Example lambda_handler_list_event rt athena :
  lambda_handler rt athena (PList []) = Raise (AttributeError "list" "get").
Proof. reflexivity. Qed.

(** ** The History Merger: re-merging a batch *)

Module MergerFacts.
Import Merger.




















(** The second merge of the counterexample, spelled out. *)
Example inactive_new_entity_second_pass :
  let once := merge_batch 10 [] [snapshot "E1" "Sales" 1 false] in
  let twice := merge_batch 20 (table once) [snapshot "E1" "Sales" 1 false] in
  outcomes once = [Classified NEW]
  /\ outcomes twice = [Classified DEACTIVATED]
  /\ writes twice = 2%nat.
Proof. repeat split; vm_compute; reflexivity. Qed.

(** Two records of one entity, same instant, different division: the
    second merge writes again. *)
Example conflicting_records_rewritten :
  ~ remerge_is_noop 10 20 [] [snapshot "E1" "Sales" 1 true; snapshot "E1" "Ops" 1 true].
Proof. intros (_ & _ & Hw). vm_compute in Hw. discriminate Hw. Qed.

(** A record older than the current row is discarded, not classified. *)
Example stale_record_discarded :
  let T := table (merge_batch 10 [] [snapshot "E1" "Sales" 5 true]) in
  let r := merge_batch 20 T [snapshot "E1" "Ops" 1 true] in
  table r = T /\ outcomes r = [StaleSnapshotDiscarded] /\ writes r = 0%nat.
Proof. repeat split; vm_compute; reflexivity. Qed.

(** Scenarios A to D of section 8, merged one after the other. *)
Example scenarios_A_to_D :
  let A := merge_batch 10 [] [snapshot "E1" "Sales" 1 true] in
  let B := merge_batch 20 (table A) [snapshot "E1" "Ops" 2 true] in
  let C := merge_batch 30 (table B) [snapshot "E1" "Ops" 3 true] in
  let D := merge_batch 40 (table C) [snapshot "E1" "Ops" 4 false] in
  outcomes A = [Classified NEW]
  /\ outcomes B = [Classified CHANGED]
  /\ outcomes C = [Classified UNCHANGED] /\ table C = table B
  /\ outcomes D = [Classified DEACTIVATED]
  /\ (fun h => (valid_from h, valid_to h, is_current h, is_deleted h)) <$> table D
     = [(1, Some 2, false, false); (2, Some 4, false, false); (4, None, true, true)].
Proof. repeat split; vm_compute; reflexivity. Qed.

End MergerFacts.
